(** * dialog-manager: the registry store and the [useDialog] mount controller

    A shallow embedding of

    - the zustand store [useDialogManager] (its [state] record and the four
      actions [registerDialog], [unregisterDialog], [openDialog],
      [closeDialog], each an immer [produce] recipe handed to [set]), and
    - the React hook [useDialog] of [use-dialog.tsx] (its two [useState]
      cells, its two refs, its two effects and the handlers [open], [close]
      and [updateProps]),

    followed by the properties of both that the specification states.

    Conventions of the model.
    - The [state] record of the store is a finite map from ids to entries;
      an id is an own key of that record or it is absent.
    - DOM nodes are handles into a node table; a node carries its tag, its
      [id] attribute and its parent pointer.  [document.body] is the only
      parent the hook ever uses.
    - [ReactDOM] keeps, per container node, the element last rendered there.
    - A [useState] setter writes the value the next render will read; the
      handlers of a render see the [id] and [props] of that render (their
      closure), which is the [view] they take as an argument.
    - Every call the hook makes to the store, to the DOM and to [ReactDOM]
      is appended to a trace, so that "no call is made" can be stated.
    - A thrown exception aborts the running handler and keeps the effects
      that happened before it.
    - The hook runs in a browser: [window] and [document] exist, so the
      guard at the top of [useDialog] does not warn.  The component type
      handed to the hook is the same at every render. *)

From stdpp Require Import gmap strings list fin_maps.
From Stdlib Require Import ZArith.

Abbreviation DialogId := string.

(** JavaScript exceptions the modelled code can raise: writing a property
    of [undefined] is a [TypeError]. *)
Inductive exn := TypeError.

Inductive result (A : Type) :=
| Ok (a : A)
| Throw (e : exn).
Arguments Ok {A} a.
Arguments Throw {A} e.

(** ** The registry store *)
Module Store.

(** [{ open: boolean }] *)
Record entry := { open : bool }.

(** [state: Record<string, { open: boolean }>] *)
Abbreviation state := (gmap string entry).

(** [state.state[id] = { open: false }] *)
Definition registerDialog_recipe (id : DialogId) (s : state) : result state :=
  Ok (<[id := {| open := false |}]> s).

(** [delete state.state[id]] *)
Definition unregisterDialog_recipe (id : DialogId) (s : state) : result state :=
  Ok (delete id s).

(** The field write [e.open = b] on an entry. *)
Definition set_open (b : bool) (e : entry) : entry := {| open := b |}.

(** [state.state[id].open = true]: the read [state.state[id]] yields
    [undefined] for an absent id, and the write to its [open] throws. *)
Definition openDialog_recipe (id : DialogId) (s : state) : result state :=
  match s !! id with
  | Some e => Ok (<[id := set_open true e]> s)
  | None => Throw TypeError
  end.

(** [state.state[id].open = false] *)
Definition closeDialog_recipe (id : DialogId) (s : state) : result state :=
  match s !! id with
  | Some e => Ok (<[id := set_open false e]> s)
  | None => Throw TypeError
  end.

(** [set(produce(recipe))]: the recipe runs on a draft; when it returns,
    the new snapshot replaces the state, and when it throws the
    exception reaches the caller and the state stays as it was. *)
Definition set_produce (recipe : state → result state) (s : state)
  : result unit * state :=
  match recipe s with
  | Ok s' => (Ok tt, s')
  | Throw e => (Throw e, s)
  end.

Definition registerDialog (id : DialogId) := set_produce (registerDialog_recipe id).
Definition unregisterDialog (id : DialogId) := set_produce (unregisterDialog_recipe id).
Definition openDialog (id : DialogId) := set_produce (openDialog_recipe id).
Definition closeDialog (id : DialogId) := set_produce (closeDialog_recipe id).

(** The four actions of [DialogManagerStore], as data. *)
Inductive action :=
| RegisterDialog (id : DialogId)
| UnregisterDialog (id : DialogId)
| OpenDialog (id : DialogId)
| CloseDialog (id : DialogId).

Definition key (a : action) : DialogId :=
  match a with
  | RegisterDialog id | UnregisterDialog id | OpenDialog id | CloseDialog id => id
  end.

Definition dispatch (a : action) : state → result unit * state :=
  match a with
  | RegisterDialog id => registerDialog id
  | UnregisterDialog id => unregisterDialog id
  | OpenDialog id => openDialog id
  | CloseDialog id => closeDialog id
  end.

(** Calls made one after the other by one caller: an exception ends the
    sequence. *)
Fixpoint run (l : list action) (s : state) : result unit * state :=
  match l with
  | [] => (Ok tt, s)
  | a :: l' =>
      match dispatch a s with
      | (Ok _, s') => run l' s'
      | (Throw e, s') => (Throw e, s')
      end
  end.

(** [state: {}] *)
Definition initial : state := ∅.

End Store.

(** ** The mount controller [useDialog] *)
Module UseDialog.

(** Property values ([unknown] in the source); nothing below inspects them. *)
Inductive value :=
| VUndefined
| VBool (b : bool)
| VNumber (z : Z)
| VString (s : string).

(** [T extends { id: DialogId } & Record<string, unknown>], kept as the
    destructuring [{ id, ...props }] splits it. *)
Record T := { id : DialogId; props : gmap string value }.

(** [Partial<T>] *)
Record PartialT := { new_id : option DialogId; new_props : gmap string value }.

(** [{ ...oldProps, ...newProps }] *)
Definition spread (oldProps : T) (newProps : PartialT) : T :=
  {| id := default (id oldProps) (new_id newProps);
     props := new_props newProps ∪ props oldProps |}.

(** *** The document *)

Abbreviation node := nat.

(** Parents a container can have: [document.body]. *)
Inductive parent := Body.

Record element :=
  { tagName : string; element_id : string; parentNode : option parent }.

Abbreviation document := (gmap nat element).

(** *** React elements: [<Suspense fallback=..><Component {...props} id={id} /></Suspense>] *)

Inductive fallback :=
| FallbackNull      (* [fallback={null}] *)
| FallbackLoading.  (* [fallback={<div>Loading...</div>}] *)

Record react_element :=
  { suspense_fallback : fallback;
    component_props : gmap string value;
    component_id : DialogId }.

(** *** Calls the hook makes, in order *)

Inductive event :=
| EvCreateElement (tag : string) (n : node)
| EvAppendChild (p : parent) (n : node)
| EvRemoveChild (p : parent) (n : node)
| EvRender (e : react_element) (n : node)
| EvUnmount (n : node)
| EvStore (a : Store.action).

(** *** State *)

(** The cells React keeps for one instance of the hook: the two
    [useState] values, the two refs, and the dependency of the
    registration effect as of its last run ([None] before the first). *)
Record hook :=
  { st_props : T;
    st_isMounted : bool;
    containerRef : option node;
    mountTargetRef : option parent;
    registerDeps : option DialogId }.

Record world :=
  { store : Store.state;
    cell : hook;
    page : document;
    roots : gmap nat react_element;
    trace : list event }.

(** [useState(initialProps)], [useState(false)], [useRef(null)] twice. *)
Definition init (initialProps : T) : hook :=
  {| st_props := initialProps;
     st_isMounted := false;
     containerRef := None;
     mountTargetRef := None;
     registerDeps := None |}.

Definition with_store (s : Store.state) (w : world) : world :=
  {| store := s; cell := cell w; page := page w; roots := roots w; trace := trace w |}.
Definition with_cell (h : hook) (w : world) : world :=
  {| store := store w; cell := h; page := page w; roots := roots w; trace := trace w |}.
Definition with_page (d : document) (w : world) : world :=
  {| store := store w; cell := cell w; page := d; roots := roots w; trace := trace w |}.
Definition with_roots (r : gmap nat react_element) (w : world) : world :=
  {| store := store w; cell := cell w; page := page w; roots := r; trace := trace w |}.
Definition with_trace (t : list event) (w : world) : world :=
  {| store := store w; cell := cell w; page := page w; roots := roots w; trace := t |}.

Definition with_props (p : T) (h : hook) : hook :=
  {| st_props := p; st_isMounted := st_isMounted h; containerRef := containerRef h;
     mountTargetRef := mountTargetRef h; registerDeps := registerDeps h |}.
Definition with_isMounted (b : bool) (h : hook) : hook :=
  {| st_props := st_props h; st_isMounted := b; containerRef := containerRef h;
     mountTargetRef := mountTargetRef h; registerDeps := registerDeps h |}.
Definition with_containerRef (c : option node) (h : hook) : hook :=
  {| st_props := st_props h; st_isMounted := st_isMounted h; containerRef := c;
     mountTargetRef := mountTargetRef h; registerDeps := registerDeps h |}.
Definition with_mountTargetRef (t : option parent) (h : hook) : hook :=
  {| st_props := st_props h; st_isMounted := st_isMounted h; containerRef := containerRef h;
     mountTargetRef := t; registerDeps := registerDeps h |}.
Definition with_registerDeps (d : option DialogId) (h : hook) : hook :=
  {| st_props := st_props h; st_isMounted := st_isMounted h; containerRef := containerRef h;
     mountTargetRef := mountTargetRef h; registerDeps := d |}.

(** *** The monad of handlers: state, and exceptions that keep the state *)

Definition M (A : Type) : Type := world → result A * world.

#[global] Instance M_ret : MRet M := λ A a w, (Ok a, w).
#[global] Instance M_bind : MBind M := λ A B f m w,
  match m w with
  | (Ok a, w') => f a w'
  | (Throw e, w') => (Throw e, w')
  end.

Definition gets {A} (f : world → A) : M A := λ w, (Ok (f w), w).
Definition modify (f : world → world) : M unit := λ w, (Ok tt, f w).
Definition emit (ev : event) : M unit := modify (λ w, with_trace (trace w ++ [ev]) w).
Definition throw {A} (e : exn) : M A := λ w, (Throw e, w).

(** The outcome and the final state of running a handler. *)
Definition outcome {A} (m : M A) (w : world) : result A := (m w).1.
Definition exec {A} (m : M A) (w : world) : world := (m w).2.

(** *** The store, as the hook calls it *)

Definition run_store (a : Store.action) : M unit :=
  λ w, let '(r, s) := Store.dispatch a (store w) in (r, with_store s w).

Definition call_store (a : Store.action) : M unit :=
  emit (EvStore a);; run_store a.

Definition registerDialog (id : DialogId) : M unit := call_store (Store.RegisterDialog id).
Definition openDialog (id : DialogId) : M unit := call_store (Store.OpenDialog id).
Definition closeDialog (id : DialogId) : M unit := call_store (Store.CloseDialog id).

(** *** The DOM calls of the hook *)

(** [document.createElement(tag)]: a new node, detached, without an id. *)
Definition createElement (tag : string) : M node :=
  d ← gets page;
  let n := fresh (dom d) in
  emit (EvCreateElement tag n);;
  modify (with_page (<[n := {| tagName := tag; element_id := ""; parentNode := None |}]> d));;
  mret n.

(** [n.id = s] *)
Definition set_element_id (n : node) (s : string) : M unit :=
  modify (λ w, with_page
    (alter (λ e, {| tagName := tagName e; element_id := s; parentNode := parentNode e |})
       n (page w)) w).

Definition set_parentNode (p : option parent) (e : element) : element :=
  {| tagName := tagName e; element_id := element_id e; parentNode := p |}.

(** [n.parentNode] *)
Definition get_parentNode (n : node) : M (option parent) :=
  gets (λ w, page w !! n ≫= parentNode).

(** [p.appendChild(n)] *)
Definition appendChild (p : parent) (n : node) : M unit :=
  emit (EvAppendChild p n);;
  modify (λ w, with_page (alter (set_parentNode (Some p)) n (page w)) w).

(** [p.removeChild(n)], called on the parent of [n]. *)
Definition removeChild (p : parent) (n : node) : M unit :=
  emit (EvRemoveChild p n);;
  modify (λ w, with_page (alter (set_parentNode None) n (page w)) w).

(** The nodes under [document.body]. *)
Definition in_body (d : document) (n : node) : Prop :=
  ∃ e, d !! n = Some e ∧ parentNode e = Some Body.


(** *** ReactDOM *)

(** [ReactDOM.render(element, container)] *)
Definition ReactDOM_render (e : react_element) (n : node) : M unit :=
  emit (EvRender e n);;
  modify (λ w, with_roots (<[n := e]> (roots w)) w).

(** [ReactDOM.unmountComponentAtNode(container)] *)
Definition ReactDOM_unmountComponentAtNode (n : node) : M unit :=
  emit (EvUnmount n);;
  modify (λ w, with_roots (delete n (roots w)) w).

(** *** The cells *)

Definition get_containerRef : M (option node) := gets (λ w, containerRef (cell w)).
Definition set_containerRef (c : option node) : M unit :=
  modify (λ w, with_cell (with_containerRef c (cell w)) w).
Definition set_mountTargetRef (t : option parent) : M unit :=
  modify (λ w, with_cell (with_mountTargetRef t (cell w)) w).

(** [setIsMounted(b)] *)
Definition setIsMounted (b : bool) : M unit :=
  modify (λ w, with_cell (with_isMounted b (cell w)) w).

(** [setProps(updater)]: the updater receives the latest state. *)
Definition setProps (updater : T → T) : M unit :=
  modify (λ w, with_cell (with_props (updater (st_props (cell w))) (cell w)) w).

(** *** The hook *)

(** What one call of [useDialog] hands out: the returned [isMounted] and
    [container], and the [id] and [props] its handlers close over. *)
Record view :=
  { v_id : DialogId;
    v_props : gmap string value;
    isMounted : bool;
    container : option node }.

Definition suspense (f : fallback) (v_props : gmap string value) (v_id : DialogId)
  : react_element :=
  {| suspense_fallback := f; component_props := v_props; component_id := v_id |}.

(** [function open()] *)
Definition open (v : view) : M unit :=
  (* Create a container if we don't have one yet *)
  c ← get_containerRef;
  match c with
  | None =>
      n ← createElement "div";
      set_containerRef (Some n);;
      set_element_id n (v_id v)
  | Some _ => mret tt
  end;;
  (* Determine where to mount *)
  set_mountTargetRef (Some Body);;
  (* Append to target if not appended yet *)
  c ← get_containerRef;
  match c with
  | Some n =>
      p ← get_parentNode n;
      match p with
      | None =>
          t ← gets (λ w, mountTargetRef (cell w));
          match t with
          | Some target => appendChild target n
          | None => throw TypeError
          end
      | Some _ => mret tt
      end
  | None => mret tt
  end;;
  (* Render the component *)
  let element := suspense FallbackNull (v_props v) (v_id v) in
  c ← get_containerRef;
  match c with
  | Some n =>
      ReactDOM_render element n;;
      setIsMounted true;;
      openDialog (v_id v)
  | None => mret tt
  end.

(** [function close(debounce = 0)] *)
Definition close (v : view) (debounce : Z) : M unit :=
  closeDialog (v_id v);;
  c ← get_containerRef;
  match c with
  | Some n => ReactDOM_unmountComponentAtNode n
  | None => mret tt
  end;;
  (* Remove container from the DOM *)
  c ← get_containerRef;
  match c with
  | Some n =>
      p ← get_parentNode n;
      match p with
      | Some q => removeChild q n
      | None => mret tt
      end
  | None => mret tt
  end;;
  set_containerRef None;;
  setIsMounted false.

(** [function updateProps(newProps)] *)
Definition updateProps (v : view) (newProps : PartialT) : M unit :=
  setProps (λ oldProps, spread oldProps newProps).

(** The first effect, [registerDialog(id)] with dependencies
    [[id, registerDialog]]: the store's action is the same function at
    every render, so the effect runs at the first render and whenever
    [id] differs from the one of the previous render. *)
Definition register_effect (v_id : DialogId) : M unit :=
  deps ← gets (λ w, registerDeps (cell w));
  if decide (deps = Some v_id) then mret tt
  else
    modify (λ w, with_cell (with_registerDeps (Some v_id) (cell w)) w);;
    registerDialog v_id.

(** The second effect, with dependencies [[props, Component, isMounted, id]]:
    [props] is the rest object of a destructuring, a new object at every
    render, so the effect runs after every render. *)
Definition render_effect (v : view) : M unit :=
  c ← get_containerRef;
  match isMounted v, c with
  | true, Some n => ReactDOM_render (suspense FallbackLoading (v_props v) (v_id v)) n
  | _, _ => mret tt
  end.

(** The values one render reads from the cells. *)
Definition view_of (w : world) : view :=
  {| v_id := id (st_props (cell w));
     v_props := props (st_props (cell w));
     isMounted := st_isMounted (cell w);
     container := containerRef (cell w) |}.

(** One render of the component that calls [useDialog]: the body reads
    the cells, then the two effects run in order. *)
Definition useDialog : M view :=
  v ← gets view_of;
  register_effect (v_id v);;
  render_effect v;;
  mret v.

(** A page before the first render of the hook. *)
Definition initial_world (initialProps : T) (s : Store.state) (d : document) : world :=
  {| store := s; cell := init initialProps; page := d; roots := ∅; trace := [] |}.

(** *** Notions used to state the properties *)

(** The two calls [open] makes once the container exists and is attached. *)
Definition open_calls (v : view) (n : node) : list event :=
  [EvRender (suspense FallbackNull (v_props v) (v_id v)) n;
   EvStore (Store.OpenDialog (v_id v))].

(** How many nodes a trace created. *)
Fixpoint created (t : list event) : nat :=
  match t with
  | [] => 0
  | EvCreateElement _ _ :: t' => S (created t')
  | _ :: t' => created t'
  end.


(** What the owner of a controller can do with it: call a handler of some
    render, or render again. *)
Inductive call :=
| CallOpen (v : view)
| CallClose (v : view) (debounce : Z)
| CallUpdateProps (v : view) (newProps : PartialT)
| CallRender.

Definition perform (c : call) : M unit :=
  match c with
  | CallOpen v => open v
  | CallClose v debounce => close v debounce
  | CallUpdateProps v newProps => updateProps v newProps
  | CallRender => useDialog;; mret tt
  end.

Definition is_close (c : call) : bool :=
  match c with CallClose _ _ => true | _ => false end.

(** Calls made one event after the other: an exception ends the handler
    that raised it, not the page. *)
Definition run_calls (l : list call) (w : world) : world :=
  foldl (λ w c, exec (perform c) w) w l.

(** *** A controller in use *)

(** What the owner does in one event: it calls a handler of the latest
    render. *)
Inductive user_call :=
| UOpen
| UClose (debounce : Z)
| UUpdateProps (newProps : PartialT).

Definition handler (u : user_call) (v : view) : M unit :=
  match u with
  | UOpen => open v
  | UClose debounce => close v debounce
  | UUpdateProps newProps => updateProps v newProps
  end.

(** One event on a rendered controller: the handler of the latest render
    runs, then the component renders again.  Between two renders the
    cells a render reads do not change, so [view_of] gives the view of
    the latest render. *)
Definition event_step (w : world) (u : user_call) : world :=
  exec useDialog (exec (handler u (view_of w)) w).

(** The first render of a component on a given page, then its events. *)
Definition session (initialProps : T) (s : Store.state) (d : document)
    (us : list user_call) : world :=
  foldl event_step (exec useDialog (initial_world initialProps s d)) us.


(** How many times a trace asked the store to unregister an id. *)
Fixpoint unregister_calls (t : list event) : nat :=
  match t with
  | [] => 0
  | EvStore (Store.UnregisterDialog _) :: t' => S (unregister_calls t')
  | _ :: t' => unregister_calls t'
  end.

(** The cells agree: [isMounted] is set exactly when the ref holds a node. *)
Definition cells_agree (w : world) : Prop :=
  st_isMounted (cell w) = true ↔ is_Some (containerRef (cell w)).


(** *** The scenario of the specification *)

(** A page with an empty body and an empty registry on which a component
    calls [useDialog] with id ["modal-1"]; [mounted0] is that page after
    the first render, [opened0] after [open()] and the render it causes. *)
Definition modal1 : T := {| id := "modal-1"; props := ∅ |}.
Definition mounted0 : world := session modal1 Store.initial ∅ [].
Definition opened0 : world := session modal1 Store.initial ∅ [UOpen].

End UseDialog.

(** * Properties of the registry store *)
Section StoreFacts.

Implicit Types (id k : DialogId) (s : Store.state) (e : Store.entry).

Local Ltac store_unfold :=
  unfold Store.dispatch, Store.registerDialog, Store.unregisterDialog,
    Store.openDialog, Store.closeDialog, Store.set_produce,
    Store.registerDialog_recipe, Store.unregisterDialog_recipe,
    Store.openDialog_recipe, Store.closeDialog_recipe, Store.set_open in *.

Lemma openDialog_registered id s e :
  s !! id = Some e →
  Store.openDialog id s = (Ok tt, <[id := {| Store.open := true |}]> s).
Proof. intros H. store_unfold. by rewrite H. Qed.

Lemma closeDialog_registered id s e :
  s !! id = Some e →
  Store.closeDialog id s = (Ok tt, <[id := {| Store.open := false |}]> s).
Proof. intros H. store_unfold. by rewrite H. Qed.






(** C4. On a registered id, [openDialog] then [closeDialog] both succeed
    and leave the flag false; and the pair in the other order,
    [closeDialog] then [openDialog], applied twice gives the registry that
    applying it once gives. *)
Theorem open_close_sequences id s :
  is_Some (s !! id) →
  (Store.run [Store.OpenDialog id; Store.CloseDialog id] s).1 = Ok tt ∧
  (Store.run [Store.OpenDialog id; Store.CloseDialog id] s).2 !! id
    = Some {| Store.open := false |} ∧
  Store.run [Store.CloseDialog id; Store.OpenDialog id;
             Store.CloseDialog id; Store.OpenDialog id] s
    = Store.run [Store.CloseDialog id; Store.OpenDialog id] s ∧
  (Store.run [Store.CloseDialog id; Store.OpenDialog id] s).1 = Ok tt.
Proof.
  intros [e H]. simpl.
  rewrite (openDialog_registered _ _ _ H), (closeDialog_registered _ _ _ H).
  erewrite !closeDialog_registered by apply lookup_insert_eq.
  erewrite !openDialog_registered by apply lookup_insert_eq.
  erewrite !closeDialog_registered by apply lookup_insert_eq.
  erewrite !openDialog_registered by apply lookup_insert_eq.
  rewrite !insert_insert_eq. simpl.
  by rewrite lookup_insert_eq.
Qed.

Lemma open_close_sequences_witness :
  (Store.run [Store.OpenDialog "modal-1"; Store.CloseDialog "modal-1"]
     {[ "modal-1" := {| Store.open := false |} ]}).2 !! "modal-1"
  = Some {| Store.open := false |}.
Proof.
  apply (open_close_sequences "modal-1" {[ "modal-1" := {| Store.open := false |} ]}).
  vm_compute; eauto.
Defined.

(** C10. Each of the four mutations touches only the key it names: at any
    other key the registry has the same entry, or the same absence of
    one, before and after, whether the call returns or throws. *)
Theorem store_actions_local (a : Store.action) k s :
  k ≠ Store.key a →
  (Store.dispatch a s).2 !! k = s !! k.
Proof.
  intros Hk. destruct a as [id|id|id|id]; simpl in Hk; store_unfold.
  - simpl. by rewrite lookup_insert_ne.
  - simpl. by rewrite lookup_delete_ne.
  - destruct (s !! id); simpl; [by rewrite lookup_insert_ne | done].
  - destruct (s !! id); simpl; [by rewrite lookup_insert_ne | done].
Qed.

Lemma store_actions_local_witness :
  (Store.dispatch (Store.UnregisterDialog "a")
     {[ "a" := {| Store.open := true |} ]}).2 !! "b" = None.
Proof.
  rewrite (store_actions_local (Store.UnregisterDialog "a") "b"); [ reflexivity | ].
  simpl. discriminate.
Defined.

(** ** Further properties of the store *)

(** X1. [unregisterDialog(id)] never throws; afterwards there is no entry
    at [id], whatever its flag was, and on an id without an entry the
    registry is handed back as it was. *)
Theorem unregisterDialog_removes id s :
  (Store.unregisterDialog id s).1 = Ok tt ∧
  (Store.unregisterDialog id s).2 !! id = None ∧
  (s !! id = None → (Store.unregisterDialog id s).2 = s).
Proof.
  store_unfold. simpl. split; [done|]. split; [apply lookup_delete_eq|].
  apply delete_id.
Qed.

Lemma unregisterDialog_removes_witness :
  (Store.unregisterDialog "ghost" {[ "modal-1" := {| Store.open := true |} ]}).2
  = {[ "modal-1" := {| Store.open := true |} ]}.
Proof.
  apply (unregisterDialog_removes "ghost"). vm_compute; reflexivity.
Defined.





End StoreFacts.

(** * Properties of the mount controller *)
Section ControllerFacts.
Import UseDialog.

Implicit Types (w : world) (v : view) (n : node) (e : Store.entry) (el : element).

Local Ltac munfold :=
  unfold open, close, updateProps, useDialog, register_effect, render_effect,
    registerDialog, openDialog, closeDialog, call_store, run_store,
    createElement, set_element_id, get_parentNode, appendChild, removeChild,
    ReactDOM_render, ReactDOM_unmountComponentAtNode,
    get_containerRef, set_containerRef, set_mountTargetRef, setIsMounted, setProps,
    emit, modify, gets, throw, outcome, exec, mbind, M_bind, mret, M_ret in *.

(** Symbolic execution of a handler: unfold, compute, and use what is
    known of the ref, of the page and of the registry. *)
Local Ltac mrun :=
  munfold;
  repeat (progress (
    simpl;
    unfold Store.openDialog, Store.closeDialog, Store.registerDialog,
      Store.set_produce, Store.openDialog_recipe, Store.closeDialog_recipe,
      Store.registerDialog_recipe, Store.set_open;
    repeat match goal with
           | H : containerRef (cell _) = _ |- _ => rewrite H
           | H : page _ !! _ = _ |- _ => rewrite H
           | H : store _ !! _ = _ |- _ => rewrite H
           end)).

Lemma world_ext w1 w2 :
  store w1 = store w2 → cell w1 = cell w2 → page w1 = page w2 →
  roots w1 = roots w2 → trace w1 = trace w2 → w1 = w2.
Proof. destruct w1, w2; simpl; congruence. Qed.

Lemma hook_ext (h1 h2 : hook) :
  st_props h1 = st_props h2 → st_isMounted h1 = st_isMounted h2 →
  containerRef h1 = containerRef h2 → mountTargetRef h1 = mountTargetRef h2 →
  registerDeps h1 = registerDeps h2 → h1 = h2.
Proof. destruct h1, h2; simpl; congruence. Qed.

(** Equality of an outcome and a state, one field at a time. *)
Local Ltac fields :=
  cbn [store cell page roots trace
       st_props st_isMounted containerRef mountTargetRef registerDeps
       with_store with_cell with_page with_roots with_trace
       with_props with_isMounted with_containerRef with_mountTargetRef
       with_registerDeps].
Local Ltac world_eq :=
  refine (f_equal (pair _) _); apply world_ext; [ | apply hook_ext | | | ];
  fields; try done.

Lemma open_without_container v w e :
  containerRef (cell w) = None →
  store w !! v_id v = Some e →
  let n := fresh (dom (page w)) in
  open v w =
    (Ok tt,
     {| store := <[v_id v := {| Store.open := true |}]> (store w);
        cell := {| st_props := st_props (cell w);
                   st_isMounted := true;
                   containerRef := Some n;
                   mountTargetRef := Some Body;
                   registerDeps := registerDeps (cell w) |};
        page := <[n := {| tagName := "div"; element_id := v_id v;
                          parentNode := Some Body |}]> (page w);
        roots := <[n := suspense FallbackNull (v_props v) (v_id v)]> (roots w);
        trace := trace w ++ [EvCreateElement "div" n; EvAppendChild Body n]
                   ++ open_calls v n |}).
Proof.
  intros Hc He n. mrun. rewrite lookup_alter_eq, lookup_insert_eq. mrun.
  world_eq.
  - by rewrite !alter_insert_eq.
  - by rewrite <- !(assoc_L (++)).
Qed.

Lemma open_with_container v w e n el :
  containerRef (cell w) = Some n →
  page w !! n = Some el →
  store w !! v_id v = Some e →
  open v w =
    (Ok tt,
     {| store := <[v_id v := {| Store.open := true |}]> (store w);
        cell := {| st_props := st_props (cell w);
                   st_isMounted := true;
                   containerRef := Some n;
                   mountTargetRef := Some Body;
                   registerDeps := registerDeps (cell w) |};
        page := <[n := set_parentNode (Some Body) el]> (page w);
        roots := <[n := suspense FallbackNull (v_props v) (v_id v)]> (roots w);
        trace := trace w
                   ++ match parentNode el with
                      | None => [EvAppendChild Body n]
                      | Some _ => []
                      end
                   ++ open_calls v n |}).
Proof.
  intros Hc Hn He. destruct el as [tg i [[]|]]; mrun; world_eq.
  - by rewrite insert_id.
  - by rewrite <- !(assoc_L (++)).
  - erewrite <- (insert_id (alter _ n (page w))).
    2:{ rewrite lookup_alter_eq, Hn. reflexivity. }
    by rewrite insert_alter_eq.
  - by rewrite <- !(assoc_L (++)).
Qed.



Lemma close_with_container v d w e n el :
  containerRef (cell w) = Some n →
  page w !! n = Some el →
  store w !! v_id v = Some e →
  close v d w =
    (Ok tt,
     {| store := <[v_id v := {| Store.open := false |}]> (store w);
        cell := {| st_props := st_props (cell w);
                   st_isMounted := false;
                   containerRef := None;
                   mountTargetRef := mountTargetRef (cell w);
                   registerDeps := registerDeps (cell w) |};
        page := <[n := set_parentNode None el]> (page w);
        roots := delete n (roots w);
        trace := trace w
                   ++ [EvStore (Store.CloseDialog (v_id v)); EvUnmount n]
                   ++ match parentNode el with
                      | Some q => [EvRemoveChild q n]
                      | None => []
                      end |}).
Proof.
  intros Hc Hn He. destruct el as [tg i [q|]]; mrun; world_eq.
  - erewrite <- (insert_id (alter _ n (page w))).
    2:{ rewrite lookup_alter_eq, Hn. reflexivity. }
    by rewrite insert_alter_eq.
  - by rewrite <- !(assoc_L (++)).
  - by rewrite insert_id.
  - by rewrite <- !(assoc_L (++)).
Qed.


Lemma updateProps_eq v p w :
  updateProps v p w =
    (Ok tt, with_cell (with_props (spread (st_props (cell w)) p) (cell w)) w).
Proof. reflexivity. Qed.

(** One render: what it returns and what its two effects do. *)
Lemma useDialog_eq w :
  let v := view_of w in
  useDialog w =
    (Ok v,
     let w1 :=
       if decide (registerDeps (cell w) = Some (v_id v)) then w
       else
         {| store := <[v_id v := {| Store.open := false |}]> (store w);
            cell := with_registerDeps (Some (v_id v)) (cell w);
            page := page w;
            roots := roots w;
            trace := trace w ++ [EvStore (Store.RegisterDialog (v_id v))] |} in
     match isMounted v, containerRef (cell w) with
     | true, Some n =>
         let el := suspense FallbackLoading (v_props v) (v_id v) in
         {| store := store w1; cell := cell w1; page := page w1;
            roots := <[n := el]> (roots w1);
            trace := trace w1 ++ [EvRender el n] |}
     | _, _ => w1
     end).
Proof.
  intros v. subst v. munfold. simpl.
  destruct (decide (registerDeps (cell w) = Some (id (st_props (cell w)))));
    simpl;
    destruct (st_isMounted (cell w));
    destruct (containerRef (cell w)) as [c|] eqn:Hc; simpl;
    rewrite ?Hc; simpl; try reflexivity; world_eq.
Qed.



Lemma useDialog_page w : page (exec useDialog w) = page w.
Proof.
  unfold exec. rewrite useDialog_eq. simpl.
  repeat case_match; reflexivity.
Qed.

Lemma useDialog_cell w :
  cell (exec useDialog w)
  = with_registerDeps (Some (id (st_props (cell w)))) (cell w).
Proof.
  unfold exec. rewrite useDialog_eq. cbn [snd view_of v_id isMounted].
  destruct (decide (registerDeps (cell w) = Some (id (st_props (cell w)))));
    destruct (st_isMounted (cell w)), (containerRef (cell w));
    apply hook_ext; simpl; done.
Qed.

Lemma useDialog_store w :
  store (exec useDialog w) = store w ∨
  store (exec useDialog w)
  = <[id (st_props (cell w)) := {| Store.open := false |}]> (store w).
Proof.
  unfold exec. rewrite useDialog_eq. simpl.
  repeat case_match; auto.
Qed.


Lemma fresh_node_unused (d : document) : d !! fresh (dom d) = None.
Proof. apply not_elem_of_dom_1, is_fresh. Qed.







Lemma created_app (t1 t2 : list event) :
  created (t1 ++ t2) = created t1 + created t2.
Proof.
  induction t1 as [|ev t1 IH]; [reflexivity|].
  destruct ev; simpl; rewrite IH; reflexivity.
Qed.

Lemma exec_render w : exec (perform CallRender) w = exec useDialog w.
Proof.
  unfold exec. simpl. unfold mbind, M_bind. rewrite useDialog_eq. reflexivity.
Qed.

Lemma useDialog_created w :
  created (trace (exec useDialog w)) = created (trace w).
Proof.
  unfold exec. rewrite useDialog_eq. simpl.
  repeat case_match; simpl; rewrite ?created_app; simpl; lia.
Qed.

(** While it holds a container, no call other than [close] replaces the
    container or creates a node. *)
Lemma perform_keeps_container c w n :
  is_close c = false →
  containerRef (cell w) = Some n →
  containerRef (cell (exec (perform c) w)) = Some n ∧
  created (trace (exec (perform c) w)) = created (trace w).
Proof.
  intros Hcl Hc. destruct c as [v|v d|v p|]; try discriminate; cbn [perform].
  - destruct (page w !! n) as [[tg i [q|]]|] eqn:Hn;
      destruct (store w !! v_id v) eqn:He; mrun;
      rewrite ?created_app; simpl; auto with lia.
  - unfold exec. rewrite updateProps_eq. simpl. auto.
  - rewrite exec_render, useDialog_cell. split; [done|].
    apply useDialog_created.
Qed.


(** Without a container, a call other than [close] either leaves the ref
    empty and creates nothing, or fills it with the one node it creates. *)
Lemma perform_creates_once c w :
  is_close c = false →
  containerRef (cell w) = None →
  let w' := exec (perform c) w in
  (containerRef (cell w') = None ∧ created (trace w') = created (trace w)) ∨
  (is_Some (containerRef (cell w')) ∧ created (trace w') = S (created (trace w))).
Proof.
  intros Hcl Hc. destruct c as [v|v d|v p|]; try discriminate; cbn [perform].
  - right. destruct (store w !! v_id v) eqn:He; mrun;
      rewrite lookup_alter_eq, lookup_insert_eq; mrun;
      rewrite ?created_app; simpl; split; eauto with lia.
  - left. unfold exec. rewrite updateProps_eq. simpl. auto.
  - left. rewrite exec_render, useDialog_cell, useDialog_created. simpl. auto.
Qed.

Lemma run_calls_keep_container l w n :
  forallb (λ c, negb (is_close c)) l = true →
  containerRef (cell w) = Some n →
  containerRef (cell (run_calls l w)) = Some n ∧
  created (trace (run_calls l w)) = created (trace w).
Proof.
  revert w. induction l as [|c l IH]; intros w Hl Hc; [done|].
  simpl in Hl. apply andb_prop in Hl as [Hcl Hl].
  apply negb_true_iff in Hcl.
  destruct (perform_keeps_container c w n Hcl Hc) as [Hc' Hcr].
  destruct (IH _ Hl Hc') as [Hc'' Hcr'']. simpl.
  split; [done | congruence].
Qed.

(** Between two [close] calls at most one node is created. *)
Lemma run_calls_create_once l w :
  forallb (λ c, negb (is_close c)) l = true →
  containerRef (cell w) = None →
  created (trace (run_calls l w)) ≤ S (created (trace w)).
Proof.
  revert w. induction l as [|c l IH]; intros w Hl Hc; [simpl; lia|].
  simpl in Hl. apply andb_prop in Hl as [Hcl Hl].
  apply negb_true_iff in Hcl.
  destruct (perform_creates_once c w Hcl Hc) as [[Hc' Hcr]|[[n Hc'] Hcr]]; simpl.
  - specialize (IH _ Hl Hc'). lia.
  - destruct (run_calls_keep_container l _ n Hl Hc') as [_ Heq]. lia.
Qed.

(** C8. [open()] on a controller that is Mounted (it holds a container,
    the container is under the body) and whose id is registered returns
    normally.  It makes two calls, [ReactDOM.render] into the container
    it holds and the store's [openDialog]: no node is created, nothing is
    appended, the ref and the page are as before.  The registry entry is
    written open again; when it was open already the registry does not
    change.  And over any sequence of calls without a [close], however
    many [open] among them, a controller creates one node at most, and
    none once it holds one. *)
Theorem open_when_mounted v w e n el :
  containerRef (cell w) = Some n →
  page w !! n = Some el →
  parentNode el = Some Body →
  store w !! v_id v = Some e →
  let w' := exec (open v) w in
  outcome (open v) w = Ok tt ∧
  containerRef (cell w') = Some n ∧
  page w' = page w ∧
  roots w' !! n = Some (suspense FallbackNull (v_props v) (v_id v)) ∧
  trace w' = trace w ++ open_calls v n ∧
  created (trace w') = created (trace w) ∧
  store w' = <[v_id v := Store.set_open true e]> (store w) ∧
  (Store.open e = true → store w' = store w) ∧
  (∀ l, forallb (λ c, negb (is_close c)) l = true →
        containerRef (cell (run_calls l w)) = Some n ∧
        created (trace (run_calls l w)) = created (trace w)) ∧
  (∀ l w0, forallb (λ c, negb (is_close c)) l = true →
           containerRef (cell w0) = None →
           created (trace (run_calls l w0)) ≤ S (created (trace w0))).
Proof.
  intros Hc Hn Hp He w'. subst w'. unfold outcome, exec.
  rewrite (open_with_container _ _ _ _ _ Hc Hn He), Hp. simpl.
  split_and!; try done.
  - apply insert_id. rewrite Hn. destruct el; simpl in *; by subst.
  - apply lookup_insert_eq.
  - rewrite created_app. simpl. lia.
  - intros Ho. apply insert_id. rewrite He. destruct e; simpl in *; by subst.
  - intros l Hl. by apply run_calls_keep_container.
  - intros l w0. apply run_calls_create_once.
Qed.



















(** ** The scenario of the specification, as instances *)

Lemma opened0_container :
  containerRef (cell opened0) = Some 0 ∧
  page opened0 !! 0 = Some {| tagName := "div"; element_id := "modal-1";
                              parentNode := Some Body |} ∧
  store opened0 !! "modal-1" = Some {| Store.open := true |}.
Proof. vm_compute. auto. Qed.





Lemma open_when_mounted_witness :
  outcome (open (view_of opened0)) opened0 = Ok tt ∧
  containerRef (cell (exec (open (view_of opened0)) opened0)) = Some 0 ∧
  created (trace (exec (open (view_of opened0)) opened0)) = created (trace opened0) ∧
  store (exec (open (view_of opened0)) opened0) = store opened0.
Proof.
  destruct opened0_container as (Hc & Hn & He).
  destruct (open_when_mounted (view_of opened0) opened0 _ _ _ Hc Hn eq_refl He)
    as (Ho & Hc' & _ & _ & _ & Hcr & _ & Hs & _).
  split_and!; [exact Ho | exact Hc' | exact Hcr | apply Hs; reflexivity].
Defined.


(** ** Further properties of the controller *)








Lemma unregister_calls_app (t1 t2 : list event) :
  unregister_calls (t1 ++ t2) = unregister_calls t1 + unregister_calls t2.
Proof.
  induction t1 as [|ev t1 IH]; [reflexivity|].
  destruct ev as [| | | | |[]]; simpl; rewrite IH; reflexivity.
Qed.

Lemma useDialog_never_unregisters w :
  unregister_calls (trace (exec useDialog w)) = unregister_calls (trace w) ∧
  dom (store w) ⊆ dom (store (exec useDialog w)).
Proof.
  split.
  - unfold exec. rewrite useDialog_eq. cbn [snd].
    repeat case_match; fields; rewrite ?unregister_calls_app; simpl; lia.
  - destruct (useDialog_store w) as [-> | ->]; [done|].
    rewrite dom_insert_L. apply union_subseteq_r.
Qed.

Lemma perform_never_unregisters c w :
  unregister_calls (trace (exec (perform c) w)) = unregister_calls (trace w) ∧
  dom (store w) ⊆ dom (store (exec (perform c) w)).
Proof.
  destruct c as [v|v d|v p|]; cbn [perform].
  - destruct (store w !! v_id v) eqn:He;
      destruct (containerRef (cell w)) as [n|] eqn:Hc.
    1, 3: destruct (page w !! n) as [[tg i [q|]]|] eqn:Hn; mrun;
      rewrite ?unregister_calls_app; simpl;
      (split; [lia | rewrite ?dom_insert_L; set_solver]).
    all: mrun; rewrite lookup_alter_eq, lookup_insert_eq; mrun;
      rewrite ?unregister_calls_app; simpl;
      (split; [lia | rewrite ?dom_insert_L; set_solver]).
  - destruct (store w !! v_id v) eqn:He;
      destruct (containerRef (cell w)) as [n|] eqn:Hc.
    1, 3: destruct (page w !! n) as [[tg i [q|]]|] eqn:Hn; mrun;
      rewrite ?unregister_calls_app; simpl;
      (split; [lia | rewrite ?dom_insert_L; set_solver]).
    all: mrun; rewrite ?unregister_calls_app; simpl;
      (split; [lia | rewrite ?dom_insert_L; set_solver]).
  - unfold exec. rewrite updateProps_eq. done.
  - rewrite exec_render. apply useDialog_never_unregisters.
Qed.

(** X9. The controller never unregisters: whatever calls are made on it
    and in whatever order ([open], [close] and [updateProps] of any
    render, renders, throwing or not), no [unregisterDialog] is sent
    to the store and no key leaves the registry, so the entries of all
    ids ever registered stay. *)
Theorem controller_never_unregisters l w :
  unregister_calls (trace (run_calls l w)) = unregister_calls (trace w) ∧
  dom (store w) ⊆ dom (store (run_calls l w)).
Proof.
  revert w. induction l as [|c l IH]; intros w; [done|].
  cbn [run_calls foldl].
  destruct (perform_never_unregisters c w) as [Ht Hd].
  destruct (IH (exec (perform c) w)) as [Ht' Hd'].
  split; [unfold run_calls in Ht'; congruence|].
  etrans; [exact Hd | exact Hd'].
Qed.

Lemma perform_cells_agree c w : cells_agree w → cells_agree (exec (perform c) w).
Proof.
  unfold cells_agree. intros Hw.
  destruct c as [v|v d|v p|]; cbn [perform].
  - destruct (store w !! v_id v) eqn:He;
      destruct (containerRef (cell w)) as [n|] eqn:Hc.
    1, 3: destruct (page w !! n) as [[tg i [q|]]|] eqn:Hn; mrun; split; eauto.
    all: mrun; rewrite lookup_alter_eq, lookup_insert_eq; mrun; split; eauto.
  - destruct (store w !! v_id v) eqn:He;
      destruct (containerRef (cell w)) as [n|] eqn:Hc.
    1, 3: destruct (page w !! n) as [[tg i [q|]]|] eqn:Hn; mrun; done.
    all: mrun; done.
  - unfold exec. rewrite updateProps_eq. exact Hw.
  - rewrite exec_render, useDialog_cell. exact Hw.
Qed.

(** X10. [isMounted] and the container ref never disagree: if
    [isMounted] is set exactly when the ref holds a node, the same is
    true after any sequence of calls, also after an [open] or a [close]
    that threw; it is true of a hook before its first render, hence at
    every moment of its life. *)
Theorem isMounted_iff_container l w :
  cells_agree w →
  cells_agree (run_calls l w) ∧
  ∀ initialProps s d, cells_agree (run_calls l (initial_world initialProps s d)).
Proof.
  assert (Hrun : ∀ l w, cells_agree w → cells_agree (run_calls l w)).
  { clear. induction l as [|c l IH]; intros w Hw; [exact Hw|].
    cbn [run_calls foldl]. apply IH, perform_cells_agree, Hw. }
  intros Hw. split; [by apply Hrun|].
  intros initialProps s d. apply Hrun. unfold cells_agree. simpl.
  split; [done | by intros []].
Qed.

Lemma isMounted_iff_container_witness :
  cells_agree (run_calls [CallOpen (view_of mounted0); CallRender;
                          CallClose (view_of mounted0) 0] mounted0).
Proof.
  apply (isMounted_iff_container _ mounted0).
  unfold cells_agree. vm_compute. split; [done | by intros []].
Defined.

Lemma perform_page_frame c w (m : node) el :
  page w !! m = Some el →
  containerRef (cell w) ≠ Some m →
  page (exec (perform c) w) !! m = Some el ∧
  containerRef (cell (exec (perform c) w)) ≠ Some m.
Proof.
  intros Hm Hne.
  assert (Hfresh : fresh (dom (page w)) ≠ m).
  { intros <-. by rewrite fresh_node_unused in Hm. }
  destruct c as [v|v d|v p|]; cbn [perform].
  - destruct (store w !! v_id v) eqn:He;
      destruct (containerRef (cell w)) as [n|] eqn:Hc.
    1, 3: assert (n ≠ m) by congruence;
      destruct (page w !! n) as [[tg i [q|]]|] eqn:Hn; mrun;
      rewrite ?lookup_alter_ne by done; (split; [done | congruence]).
    all: mrun; rewrite lookup_alter_eq, lookup_insert_eq; mrun;
      rewrite ?lookup_alter_ne, ?lookup_insert_ne by done;
      (split; [done | congruence]).
  - destruct (store w !! v_id v) eqn:He;
      destruct (containerRef (cell w)) as [n|] eqn:Hc.
    1, 3: assert (n ≠ m) by congruence;
      destruct (page w !! n) as [[tg i [q|]]|] eqn:Hn; mrun;
      rewrite ?lookup_alter_ne by done; (split; [done | congruence]).
    all: mrun; (split; [done | congruence]).
  - unfold exec. rewrite updateProps_eq. done.
  - rewrite exec_render, useDialog_cell, useDialog_page. done.
Qed.

(** X13. A controller touches no node but its own container: a node of
    the page that the ref does not hold keeps its tag, id and parent
    through any sequence of calls, and never becomes the container. *)
Theorem other_nodes_untouched l w (m : node) el :
  page w !! m = Some el →
  containerRef (cell w) ≠ Some m →
  page (run_calls l w) !! m = Some el ∧
  containerRef (cell (run_calls l w)) ≠ Some m.
Proof.
  revert w. induction l as [|c l IH]; intros w Hm Hne; [done|].
  cbn [run_calls foldl].
  destruct (perform_page_frame c w m el Hm Hne) as [Hm' Hne'].
  exact (IH _ Hm' Hne').
Qed.

Lemma other_nodes_untouched_witness :
  page (run_calls [CallOpen (view_of opened0)]
          (exec (close (view_of opened0) 0) opened0)) !! 0
  = Some {| tagName := "div"; element_id := "modal-1"; parentNode := None |} ∧
  containerRef (cell (run_calls [CallOpen (view_of opened0)]
                        (exec (close (view_of opened0) 0) opened0))) ≠ Some 0.
Proof.
  refine (other_nodes_untouched [CallOpen (view_of opened0)]
            (exec (close (view_of opened0) 0) opened0) 0 _ _ _).
  - vm_compute. reflexivity.
  - vm_compute. discriminate.
Defined.

(** X14. Every open cycle gets a container of its own: [close()] on a
    controller holding a container and then [open()] leave the ref with
    a node that is not the previous one; the new node is under the body,
    the previous one stays detached, and exactly one node was created. *)
Theorem reopen_creates_new_node v v' (debounce : Z) w e e' n el :
  containerRef (cell w) = Some n →
  page w !! n = Some el →
  store w !! v_id v = Some e →
  store w !! v_id v' = Some e' →
  let w1 := exec (close v debounce) w in
  let w2 := exec (open v') w1 in
  outcome (close v debounce) w = Ok tt ∧
  outcome (open v') w1 = Ok tt ∧
  created (trace w2) = S (created (trace w)) ∧
  ¬ in_body (page w2) n ∧
  ∃ n', containerRef (cell w2) = Some n' ∧ n' ≠ n ∧ in_body (page w2) n'.
Proof.
  intros Hc Hn He He' w1 w2.
  assert (Hclose := close_with_container v debounce w e n el Hc Hn He).
  assert (Hw1 : w1 = (close v debounce w).2) by reflexivity.
  assert (Ho1 : outcome (close v debounce) w = (close v debounce w).1)
    by reflexivity.
  assert (Hw2 : w2 = (open v' w1).2) by reflexivity.
  assert (Ho2 : outcome (open v') w1 = (open v' w1).1) by reflexivity.
  clearbody w2. clearbody w1.
  rewrite Hclose in Hw1, Ho1. cbn [fst snd] in Hw1, Ho1.
  assert (Hc1 : containerRef (cell w1) = None) by (by rewrite Hw1).
  assert (He1 : is_Some (store w1 !! v_id v')).
  { rewrite Hw1. cbn [store]. rewrite lookup_insert. case_decide; eauto. }
  destruct He1 as [e1 He1].
  assert (Hp1 : page w1 = <[n := set_parentNode None el]> (page w))
    by (by rewrite Hw1).
  assert (Ht1 : created (trace w1) = created (trace w)).
  { rewrite Hw1. cbn [trace]. rewrite !created_app.
    destruct (parentNode el); simpl; lia. }
  assert (Hopen := open_without_container v' w1 e1 Hc1 He1).
  cbv zeta in Hopen. rewrite Hopen in Hw2, Ho2. cbn [fst snd] in Hw2, Ho2.
  assert (Hfresh : fresh (dom (page w1)) ≠ n).
  { intros Heq. pose proof (fresh_node_unused (page w1)) as Hf.
    rewrite Heq, Hp1, lookup_insert_eq in Hf. discriminate. }
  split; [exact Ho1|]. split; [exact Ho2|]. subst w2. fields.
  split; [rewrite !created_app, Ht1; simpl; lia|].
  split.
  - intros (el' & Hl & Hpar). rewrite lookup_insert_ne in Hl by done.
    rewrite Hp1, lookup_insert_eq in Hl. injection Hl as <-. discriminate.
  - eexists. split; [reflexivity|]. split; [exact Hfresh|].
    eexists. split; [apply lookup_insert_eq | reflexivity].
Qed.

Lemma reopen_creates_new_node_witness :
  ∃ n', containerRef (cell (exec (open (view_of opened0))
                              (exec (close (view_of opened0) 0) opened0)))
        = Some n' ∧ n' ≠ 0.
Proof.
  destruct opened0_container as (Hc & Hn & He).
  destruct (reopen_creates_new_node (view_of opened0) (view_of opened0) 0
              opened0 _ _ _ _ Hc Hn He He)
    as (_ & _ & _ & _ & n' & Hn' & Hne & _).
  exists n'. split; [exact Hn' | exact Hne].
Defined.









(** X15. A call on the controller reaches the registry at one key only:
    [open] and [close] at the id of the render they belong to, a render
    at the id in the props cell, [updateProps] nowhere.  Every other
    key keeps its entry, or its absence, whether the call returns or
    throws. *)
Theorem controller_store_frame c w (k : DialogId) :
  match c with
  | CallOpen v | CallClose v _ => k ≠ v_id v
  | CallUpdateProps _ _ => True
  | CallRender => k ≠ id (st_props (cell w))
  end →
  store (exec (perform c) w) !! k = store w !! k.
Proof.
  intros Hk. destruct c as [v|v d|v p|]; cbn [perform].
  - destruct (store w !! v_id v) eqn:He;
      destruct (containerRef (cell w)) as [n|] eqn:Hc.
    1, 3: destruct (page w !! n) as [[tg i [q|]]|] eqn:Hn; mrun;
      rewrite ?lookup_insert_ne by done; done.
    all: mrun; rewrite lookup_alter_eq, lookup_insert_eq; mrun;
      rewrite ?lookup_insert_ne by done; done.
  - destruct (store w !! v_id v) eqn:He;
      destruct (containerRef (cell w)) as [n|] eqn:Hc.
    1, 3: destruct (page w !! n) as [[tg i [q|]]|] eqn:Hn; mrun;
      rewrite ?lookup_insert_ne by done; done.
    all: mrun; rewrite ?lookup_insert_ne by done; done.
  - unfold exec. by rewrite updateProps_eq.
  - rewrite exec_render. destruct (useDialog_store w) as [-> | ->]; [done|].
    by rewrite lookup_insert_ne.
Qed.

Lemma controller_store_frame_witness :
  store (exec (perform (CallClose (view_of opened0) 0)) opened0) !! "modal-2"
  = store opened0 !! "modal-2".
Proof.
  apply (controller_store_frame (CallClose (view_of opened0) 0) opened0 "modal-2").
  vm_compute. discriminate.
Defined.

End ControllerFacts.
